(** * aardvark: tools/pathtools.cpp

    A shallow embedding of the URI / path helpers of [namespace tools]
    ([IsFileUri], [IsHttpUri], [FileUriToPath], [PathToFileUri],
    [UriToSubpath]) together with the pieces of the C and C++ standard
    libraries they call, and the properties of these helpers.

    Conventions.
    - a [std::string] is a [list ascii]; it may hold NUL characters;
    - [size_t] is a 64-bit unsigned integer, carried as a [Z] whose
      wrap-around is written out ([size_t_wrap]);
    - a call that can throw or that can leave the defined behaviour of
      the language returns an [outcome]. *)

From Stdlib Require Import ZArith List Ascii String Bool Lia.
Import ListNotations.
Open Scope Z_scope.

(** ** Outcomes: values, C++ exceptions and undefined behaviour *)

Inductive failure : Type :=
| out_of_range          (* std::out_of_range thrown by basic_string *)
| undefined_behaviour.  (* read outside a buffer, invalid iterator *)

Inductive outcome (A : Type) : Type :=
| Ok (a : A)
| Fail (f : failure).
Arguments Ok {A} a.
Arguments Fail {A} f.

Definition bind {A B : Type} (c : outcome A) (k : A -> outcome B) : outcome B :=
  match c with
  | Ok a => k a
  | Fail f => Fail f
  end.

Notation "x <- c ;; k" := (bind c (fun x => k))
  (at level 61, c at next level, right associativity).

(** ** Strings and characters *)

Definition str := list ascii.

(** A string literal of the source, as the sequence of its characters. *)
Definition lit (s : string) : str := list_ascii_of_string s.
Arguments lit s%_string.

Definition NUL : ascii := Ascii.zero.

(** The value of a character seen as [unsigned char]. *)
Definition uchar (c : ascii) : Z := Z.of_nat (nat_of_ascii c).

(** [size_t] arithmetic is modulo [2^64]. *)
Definition SIZE_MODULUS : Z := 2 ^ 64.
Definition size_t_wrap (z : Z) : Z := z mod SIZE_MODULUS.

(** [basic_string::max_size()]: no string is longer than this. *)
Definition max_size : Z := 2 ^ 63 - 1.

Definition size (s : str) : Z := Z.of_nat (List.length s).

(** [s.c_str()] and the array behind a string literal: the characters
    followed by the terminating NUL. *)
Definition c_str (s : str) : list ascii := s ++ [NUL].

(** [strncmp]: compares at most [n] characters, stops after a NUL that
    both arrays share, and yields the difference of the first pair of
    characters that differ.  Running off either array is undefined. *)
Fixpoint strncmp_loop (s1 s2 : list ascii) (n : nat) {struct n} : outcome Z :=
  match n with
  | O => Ok 0
  | S n' =>
      match s1, s2 with
      | c1 :: t1, c2 :: t2 =>
          if negb (Ascii.eqb c1 c2) then Ok (uchar c1 - uchar c2)
          else if Ascii.eqb c1 NUL then Ok 0
          else strncmp_loop t1 t2 n'
      | _, _ => Fail undefined_behaviour
      end
  end.

Definition strncmp (s1 s2 : list ascii) (n : Z) : outcome Z :=
  strncmp_loop s1 s2 (Z.to_nat n).

(** [strlen]: the number of characters before the first NUL. *)
Fixpoint strlen (s : list ascii) : outcome Z :=
  match s with
  | [] => Fail undefined_behaviour
  | c :: t => if Ascii.eqb c NUL then Ok 0 else n <- strlen t ;; Ok (n + 1)
  end.

(** [s[i]]: defined for [i <= s.size()], the character at [size()] being NUL. *)
Definition index (s : str) (i : Z) : outcome ascii :=
  if (i <? 0) || (size s <? i) then Fail undefined_behaviour
  else Ok (nth (Z.to_nat i) s NUL).

(** [s.substr(pos)]: throws when [pos > size()]. *)
Definition substr (s : str) (pos : Z) : outcome str :=
  if size s <? pos then Fail out_of_range
  else Ok (skipn (Z.to_nat pos) s).

(** [s.erase(pos, count)]: throws when [pos > size()], else removes
    [min(count, size() - pos)] characters starting at [pos]. *)
Definition erase (s : str) (pos count : Z) : outcome str :=
  if size s <? pos then Fail out_of_range
  else
    let removed := Z.min count (size s - pos) in
    Ok (firstn (Z.to_nat pos) s ++ skipn (Z.to_nat (pos + removed)) s).

(** [result.assign(s.begin() + n, s.end())]: the iterator [begin() + n]
    has to stay inside the string. *)
Definition assign_from (s : str) (n : Z) : outcome str :=
  if (n <? 0) || (size s <? n) then Fail undefined_behaviour
  else Ok (skipn (Z.to_nat n) s).

(** [std::replace(first, last, old, new)] over a whole string. *)
Definition replace (old new : ascii) (s : str) : str :=
  map (fun c => if Ascii.eqb c old then new else c) s.
Arguments replace (old new)%_char s.

(** ** tools/stringtools.h *)

Module stringtools.

(** [tolower] in the C locale: the letters A..Z move to a..z, every
    other character stays. *)
Definition tolower (c : ascii) : ascii :=
  let n := nat_of_ascii c in
  if ((65 <=? n) && (n <=? 90))%nat then ascii_of_nat (n + 32) else c.

(** Modelled from the spec: [stringToLower] is declared in
    tools/stringtools.h, which is not among the sources; the spec has it
    lower-case the full input. *)
Definition stringToLower (s : str) : str := map tolower s.

(** Modelled from the spec: [stringIsPrefix] is declared in
    tools/stringtools.h, which is not among the sources; the spec uses it
    as the test that the second string begins with the first, character
    for character. *)
Fixpoint stringIsPrefix (sPrefix sTestString : str) : bool :=
  match sPrefix, sTestString with
  | [], _ => true
  | _ :: _, [] => false
  | p :: ps, c :: cs => Ascii.eqb p c && stringIsPrefix ps cs
  end.

End stringtools.

(** ** std::filesystem::path *)

Module filesystem.

(** A path is the concatenation of an optional root-name (a drive or a
    network host), an optional root-directory and a relative path; the
    record keeps the three parts the library's parser finds. *)
Record path : Type := mkpath {
  rootName : str;
  rootDirectory : str;
  relativePath : str
}.

Definition has_root_name (p : path) : bool :=
  match rootName p with [] => false | _ :: _ => true end.

Definition root_name (p : path) : path := mkpath (rootName p) [] [].
Definition root_directory (p : path) : path := mkpath [] (rootDirectory p) [].
Definition relative_path (p : path) : path := mkpath [] [] (relativePath p).

(** [p.string()]: the path in its native format. *)
Definition string (p : path) : str :=
  rootName p ++ rootDirectory p ++ relativePath p.

(** [p.generic_string()]: the path with forward slashes as separators. *)
Definition generic_string (p : path) : str := replace "\" "/" (string p).

End filesystem.

(** ** tools/pathtools.cpp *)

(** The one compile-time switch of the file: whether [_WINDOWS] is defined. *)
Inductive platform : Type := Windows | NotWindows.

Module tools.
Import stringtools.

Definition IsFileUri (sUri : str) : outcome bool :=
  r1 <- strncmp (c_str sUri) (c_str (lit "file://")) 7 ;;
  if r1 =? 0 then Ok true
  else
    r2 <- strncmp (c_str sUri) (c_str (lit "FILE://")) 7 ;;
    Ok (r2 =? 0).

Definition IsHttpUri (sUri : str) : outcome bool :=
  let lowerUri := stringToLower sUri in
  r1 <- strncmp (c_str lowerUri) (c_str (lit "http://")) 7 ;;
  if r1 =? 0 then Ok true
  else
    r2 <- strncmp (c_str lowerUri) (c_str (lit "https://")) 8 ;;
    Ok (r2 =? 0).

(** The path that is returned is kept as the string it is built from;
    the empty path is the empty string. *)
Definition FileUriToPath (pf : platform) (sUri : str) : outcome str :=
  reject <- (if size sUri <? 8 then Ok true
             else (b <- IsFileUri sUri ;; Ok (negb b))) ;;
  if reject then Ok []
  else
    c <- index sUri 7 ;;
    if Ascii.eqb c "/" then substr sUri 8
    else
      match pf with
      | Windows => substr sUri 5
      | NotWindows => substr sUri 6
      end.

Definition PathToFileUri (p : filesystem.path) : outcome str :=
  sUri <-
    (if filesystem.has_root_name p then
       let sRootName := filesystem.string (filesystem.root_name p) in
       slashes <-
         (if 2 <=? size sRootName then
            r <- strncmp (c_str sRootName) (c_str (lit "//")) 2 ;;
            Ok (r =? 0)
          else Ok false) ;;
       unc <-
         (if slashes : bool then Ok true
          else
            r <- strncmp (c_str sRootName) (c_str (lit "\\")) 2 ;;
            Ok (r =? 0)) ;;
       if unc : bool
       then Ok (lit "file:" ++ filesystem.generic_string (filesystem.root_name p))
       else Ok (lit "file:///" ++ filesystem.generic_string (filesystem.root_name p))
     else Ok (lit "file://")) ;;
  let sUri := sUri ++ filesystem.string (filesystem.root_directory p) in
  let sUri := sUri ++ filesystem.string (filesystem.relative_path p) in
  Ok (replace "\" "/" sUri).

(** The [switch] inside the loop of [UriToSubpath]. *)
Definition is_special (c : ascii) : bool :=
  Ascii.eqb c "/" || Ascii.eqb c "\" || Ascii.eqb c "#" || Ascii.eqb c "?"
  || Ascii.eqb c ":" || Ascii.eqb c "." || Ascii.eqb c "&".

Definition underscore (c : ascii) : ascii :=
  if is_special c then "_"%char else c.

(** The scheme prefix is dropped by [assign] from an advanced iterator. *)
Definition strip_scheme (uri : str) : outcome str :=
  if stringIsPrefix (lit "http://") uri then
    n <- strlen (c_str (lit "http://")) ;; assign_from uri n
  else if stringIsPrefix (lit "https://") uri then
    n <- strlen (c_str (lit "https://")) ;; assign_from uri n
  else if stringIsPrefix (lit "ipfs://") uri then
    n <- strlen (c_str (lit "ipfs://")) ;; assign_from uri n
  else Ok uri.

Definition UriToSubpath (uri : str) (maxLength : Z) : outcome str :=
  result <- strip_scheme uri ;;
  let result := map underscore result in
  if maxLength <? size result then
    erase result 0 (size_t_wrap (maxLength - size result))
  else Ok result.

End tools.

(** ** Vocabulary of the statements *)

Import stringtools tools.

(** [s] begins with the characters of [p]. *)
Definition starts_with (p s : str) : Prop := exists rest, s = p ++ rest.

(** The characters [UriToSubpath] replaces: [/ \ # ? : . &]. *)
Definition special_characters : str := lit "/\#?:.&".

(** What the spec asks of the first step of [UriToSubpath]: one scheme
    prefix among the three is dropped, or none of them is there and the
    URI is kept whole. *)
Inductive scheme_stripped (uri : str) : str -> Prop :=
| stripped_http rest :
    uri = lit "http://" ++ rest -> scheme_stripped uri rest
| stripped_https rest :
    uri = lit "https://" ++ rest -> scheme_stripped uri rest
| stripped_ipfs rest :
    uri = lit "ipfs://" ++ rest -> scheme_stripped uri rest
| stripped_nothing :
    ~ starts_with (lit "http://") uri ->
    ~ starts_with (lit "https://") uri ->
    ~ starts_with (lit "ipfs://") uri ->
    scheme_stripped uri uri.

(** What the spec asks of the second step: the same length, an
    underscore wherever a special character stood, every other character
    in its place. *)
Definition underscored (s r : str) : Prop :=
  List.length r = List.length s /\
  forall i c, nth_error s i = Some c ->
    nth_error r i = Some (if in_dec ascii_dec c special_characters
                          then "_"%char else c).

(** A path whose root-name is not a network host of the [//host] or
    [\\host] kind. *)
Definition no_unc_authority (p : filesystem.path) : Prop :=
  ~ starts_with (lit "//") (filesystem.rootName p) /\
  ~ starts_with (lit "\\") (filesystem.rootName p).

(** A path to a URI and back. *)
Definition round_trip (pf : platform) (p : filesystem.path) : outcome str :=
  sUri <- PathToFileUri p ;; FileUriToPath pf sUri.

(** The relative path [foo/bar]: no root-name, no root-directory. *)
Definition relative_foo_bar : filesystem.path :=
  filesystem.mkpath [] [] (lit "foo/bar").

(** The rooted path [/foo/bar]: a root-directory and no root-name. *)
Definition rooted_foo_bar : filesystem.path :=
  filesystem.mkpath [] (lit "/") (lit "foo/bar").

(** The drive path [c:\a\b.ext]. *)
Definition drive_path : filesystem.path :=
  filesystem.mkpath (lit "c:") (lit "\") (lit "a\b.ext").

(** The network path [\\fnord\somepath\somefile.ext]. *)
Definition network_path : filesystem.path :=
  filesystem.mkpath (lit "\\fnord") (lit "\") (lit "somepath\somefile.ext").

(** A root-name of the [//host] or [\\host] kind. *)
Definition unc_authority (p : filesystem.path) : Prop :=
  starts_with (lit "//") (filesystem.rootName p) \/
  starts_with (lit "\\") (filesystem.rootName p).

(** A literal of the source holds no NUL. *)
Ltac literal_without_NUL := vm_compute; intuition discriminate.

(** ** The C library on NUL-terminated arrays *)

Lemma uchar_inj (a b : ascii) : uchar a = uchar b -> a = b.
Proof.
  unfold uchar. intros H. apply Nat2Z.inj in H.
  rewrite <- (ascii_nat_embedding a), <- (ascii_nat_embedding b).
  now rewrite H.
Qed.

Lemma uchar_diff (a b : ascii) : a <> b -> (uchar a - uchar b =? 0) = false.
Proof.
  intros Hab. apply Z.eqb_neq. intros H. apply Hab, uchar_inj. lia.
Qed.

Lemma stringIsPrefix_starts_with (p s : str) :
  stringIsPrefix p s = true <-> starts_with p s.
Proof.
  revert s. induction p as [|c p IH]; intros s; simpl.
  - split; [intros _; now exists s | reflexivity].
  - destruct s as [|d s].
    + split; [discriminate | intros [rest H]; discriminate].
    + rewrite andb_true_iff, IH. split.
      * intros [Hc [rest ->]]. apply Ascii.eqb_eq in Hc. subst d. now exists rest.
      * intros [rest H]. injection H as -> ->. split.
        -- apply Ascii.eqb_refl.
        -- now exists rest.
Qed.

(** Against a literal without NUL, [strncmp] over the literal's length is
    defined and is zero exactly on the strings that begin with it. *)
Lemma strncmp_loop_literal (p s : str) :
  ~ In NUL p ->
  exists r, strncmp_loop (c_str s) (c_str p) (List.length p) = Ok r
            /\ (r =? 0) = stringIsPrefix p s.
Proof.
  revert s. induction p as [|c p IH]; intros s Hnul.
  - exists 0. split; reflexivity.
  - assert (Hc : c <> NUL) by (intros ->; apply Hnul; now left).
    assert (Hp : ~ In NUL p) by (intros H; apply Hnul; now right).
    unfold c_str in *.
    destruct s as [|d s]; cbn [strncmp_loop app List.length stringIsPrefix].
    + destruct (Ascii.eqb_spec NUL c) as [E|E]; [now subst c|].
      cbn [negb]. eexists; split; [reflexivity|]. now apply uchar_diff.
    + destruct (Ascii.eqb_spec d c) as [E|E]; cbn [negb].
      * subst d. rewrite Ascii.eqb_refl. cbn [andb].
        destruct (Ascii.eqb_spec c NUL) as [E|_]; [contradiction|].
        apply IH, Hp.
      * destruct (Ascii.eqb_spec c d) as [E'|_]; [now subst|]. cbn [andb].
        eexists; split; [reflexivity|]. now apply uchar_diff.
Qed.

Lemma strncmp_literal (p s : str) (n : Z) :
  ~ In NUL p -> n = size p ->
  exists r, strncmp (c_str s) (c_str p) n = Ok r
            /\ (r =? 0) = stringIsPrefix p s.
Proof.
  intros Hp ->. unfold strncmp, size. rewrite Nat2Z.id.
  now apply strncmp_loop_literal.
Qed.

Lemma starts_with_size (p s : str) : starts_with p s -> size p <= size s.
Proof.
  intros [rest ->]. unfold size. rewrite length_app. lia.
Qed.

(** ** IsFileUri and IsHttpUri *)

Lemma IsFileUri_prefix (uri : str) :
  IsFileUri uri =
  Ok (stringIsPrefix (lit "file://") uri || stringIsPrefix (lit "FILE://") uri).
Proof.
  unfold IsFileUri.
  assert (N1 : ~ In NUL (lit "file://")) by literal_without_NUL.
  assert (N2 : ~ In NUL (lit "FILE://")) by literal_without_NUL.
  destruct (strncmp_literal _ uri 7 N1 eq_refl) as (r1 & -> & H1).
  destruct (strncmp_literal _ uri 7 N2 eq_refl) as (r2 & -> & H2).
  cbn [bind]. rewrite H1, H2.
  now destruct (stringIsPrefix (lit "file://") uri).
Qed.

Lemma IsHttpUri_prefix (uri : str) :
  IsHttpUri uri =
  Ok (stringIsPrefix (lit "http://") (stringToLower uri)
      || stringIsPrefix (lit "https://") (stringToLower uri)).
Proof.
  unfold IsHttpUri.
  assert (N1 : ~ In NUL (lit "http://")) by literal_without_NUL.
  assert (N2 : ~ In NUL (lit "https://")) by literal_without_NUL.
  destruct (strncmp_literal _ (stringToLower uri) 7 N1 eq_refl) as (r1 & -> & H1).
  destruct (strncmp_literal _ (stringToLower uri) 8 N2 eq_refl) as (r2 & -> & H2).
  cbn [bind]. rewrite H1, H2.
  now destruct (stringIsPrefix (lit "http://") (stringToLower uri)).
Qed.

Lemma IsFileUri_true_iff (uri : str) :
  IsFileUri uri = Ok true <->
  starts_with (lit "file://") uri \/ starts_with (lit "FILE://") uri.
Proof.
  rewrite IsFileUri_prefix, <- !stringIsPrefix_starts_with, <- orb_true_iff.
  split; [congruence | now intros ->].
Qed.

(** C7: [IsFileUri] never fails; it answers true exactly on the strings
    that begin with the seven characters [file://] or with the seven
    characters [FILE://]; a string shorter than seven characters gets
    false, and so does the mixed casing [File://]. *)
Theorem IsFileUri_two_exact_casings (uri : str) :
  (exists b, IsFileUri uri = Ok b)
  /\ (IsFileUri uri = Ok true <->
      starts_with (lit "file://") uri \/ starts_with (lit "FILE://") uri)
  /\ (size uri < 7 -> IsFileUri uri = Ok false)
  /\ (forall rest, IsFileUri (lit "File://" ++ rest) = Ok false).
Proof.
  split; [|split; [|split]].
  - rewrite IsFileUri_prefix. eauto.
  - apply IsFileUri_true_iff.
  - intros Hshort. rewrite IsFileUri_prefix. f_equal.
    apply not_true_is_false. rewrite orb_true_iff, !stringIsPrefix_starts_with.
    intros [H|H]; apply starts_with_size in H;
      change (size (lit "file://")) with 7 in H;
      change (size (lit "FILE://")) with 7 in H; lia.
  - intros rest. rewrite IsFileUri_prefix. reflexivity.
Qed.

Lemma IsFileUri_two_exact_casings_witness :
  IsFileUri (lit "file:/") = Ok false.
Proof.
  apply (proj1 (proj2 (proj2 (IsFileUri_two_exact_casings (lit "file:/"))))).
  vm_compute. reflexivity.
Defined.

Lemma lowered_h_is_no_file_uri (uri : str) :
  stringIsPrefix (lit "http://") (stringToLower uri)
  || stringIsPrefix (lit "https://") (stringToLower uri) = true ->
  stringIsPrefix (lit "file://") uri || stringIsPrefix (lit "FILE://") uri = false.
Proof.
  destruct uri as [|c uri]; [discriminate|].
  intros H. apply orb_false_iff.
  split; apply not_true_is_false; intros F;
    apply stringIsPrefix_starts_with in F; destruct F as [rest F];
    injection F as -> _; discriminate H.
Qed.

(** C8: [IsHttpUri] is true exactly when the lower-cased input begins with
    [http://] or [https://]; two inputs with the same lower-casing get the
    same answer; and whenever [IsHttpUri] accepts, [IsFileUri] rejects. *)
Theorem IsHttpUri_case_insensitive (uri : str) :
  (IsHttpUri uri = Ok true <->
     starts_with (lit "http://") (stringToLower uri)
     \/ starts_with (lit "https://") (stringToLower uri))
  /\ (forall uri', stringToLower uri' = stringToLower uri ->
        IsHttpUri uri' = IsHttpUri uri)
  /\ (IsHttpUri uri = Ok true -> IsFileUri uri = Ok false).
Proof.
  split; [|split].
  - rewrite IsHttpUri_prefix, <- !stringIsPrefix_starts_with, <- orb_true_iff.
    split; [congruence | now intros ->].
  - intros uri' E. now rewrite !IsHttpUri_prefix, E.
  - rewrite IsHttpUri_prefix, IsFileUri_prefix. intros H.
    f_equal. apply lowered_h_is_no_file_uri. congruence.
Qed.

Lemma IsHttpUri_case_insensitive_witness :
  IsFileUri (lit "HtTpS://Foo.Com/Index") = Ok false.
Proof.
  apply (proj2 (proj2 (IsHttpUri_case_insensitive (lit "HtTpS://Foo.Com/Index")))).
  reflexivity.
Defined.

(** ** FileUriToPath *)

Lemma FileUriToPath_reject (pf : platform) (uri : str) :
  size uri < 8 \/ IsFileUri uri = Ok false ->
  FileUriToPath pf uri = Ok [].
Proof.
  intros H. unfold FileUriToPath.
  destruct (Z.ltb_spec (size uri) 8) as [_|Hlen]; [reflexivity|].
  destruct H as [H|H]; [lia|]. now rewrite H.
Qed.

Lemma FileUriToPath_accept (pf : platform) (uri : str) :
  8 <= size uri -> IsFileUri uri = Ok true ->
  FileUriToPath pf uri =
  Ok (if Ascii.eqb (nth 7 uri NUL) "/" then skipn 8 uri
      else match pf with
           | Windows => skipn 5 uri
           | NotWindows => skipn 6 uri
           end).
Proof.
  intros Hlen Hfile. unfold FileUriToPath.
  destruct (Z.ltb_spec (size uri) 8) as [?|_]; [lia|].
  rewrite Hfile. cbn [bind negb]. unfold index, substr.
  destruct (Z.ltb_spec (size uri) 7); [lia|].
  destruct (Z.ltb_spec (size uri) 8); [lia|].
  destruct (Z.ltb_spec (size uri) 5); [lia|].
  destruct (Z.ltb_spec (size uri) 6); [lia|].
  cbn [Z.ltb orb bind]. change (7 <? 0) with false. cbn [orb bind].
  change (Z.to_nat 7) with 7%nat. change (Z.to_nat 8) with 8%nat.
  change (Z.to_nat 5) with 5%nat. change (Z.to_nat 6) with 6%nat.
  destruct (Ascii.eqb (nth 7 uri NUL) "/"); [reflexivity|].
  now destruct pf.
Qed.

(** C6: an input shorter than eight characters, or one [IsFileUri]
    rejects, makes [FileUriToPath] return the empty path; nothing is
    thrown. *)
Theorem FileUriToPath_soft_failure (pf : platform) (uri : str) :
  size uri < 8 \/ IsFileUri uri = Ok false ->
  FileUriToPath pf uri = Ok [].
Proof.
  intros [Hshort|Hscheme].
  - apply FileUriToPath_reject. now left.
  - apply FileUriToPath_reject. now right.
Qed.

Lemma FileUriToPath_soft_failure_witness :
  (size (lit "file:/") < 8 /\ FileUriToPath Windows (lit "file:/") = Ok [])
  /\ (IsFileUri (lit "http://fnord/somefile.ext") = Ok false
      /\ FileUriToPath NotWindows (lit "http://fnord/somefile.ext") = Ok []).
Proof.
  split; split.
  - reflexivity.
  - apply (FileUriToPath_soft_failure Windows (lit "file:/")). left. reflexivity.
  - reflexivity.
  - apply (FileUriToPath_soft_failure NotWindows (lit "http://fnord/somefile.ext")).
    right. reflexivity.
Defined.

Lemma file_scheme_tail (uri : str) :
  IsFileUri uri = Ok true ->
  skipn 5 uri = "/"%char :: "/"%char :: skipn 7 uri
  /\ skipn 6 uri = "/"%char :: skipn 7 uri.
Proof.
  intros H. apply IsFileUri_true_iff in H.
  destruct H as [[rest ->]|[rest ->]]; split; reflexivity.
Qed.

(** C4: for an accepted URI of at least eight characters whose character
    at index 7 is not a slash, a Windows build returns the substring from
    index 5, which begins with the two slashes of the authority, and any
    other build returns the substring from index 6, which begins with a
    single slash; [file://host/some/path] gives [//host/some/path] on
    Windows. *)
Theorem FileUriToPath_authority_form (uri : str) :
  8 <= size uri -> IsFileUri uri = Ok true -> nth 7 uri NUL <> "/"%char ->
  (FileUriToPath Windows uri = Ok (skipn 5 uri)
   /\ skipn 5 uri = "/"%char :: "/"%char :: skipn 7 uri)
  /\ (FileUriToPath NotWindows uri = Ok (skipn 6 uri)
      /\ skipn 6 uri = "/"%char :: skipn 7 uri)
  /\ FileUriToPath Windows (lit "file://host/some/path")
     = Ok (lit "//host/some/path").
Proof.
  intros Hlen Hfile Hslash.
  apply Ascii.eqb_neq in Hslash.
  pose proof (file_scheme_tail uri Hfile) as [T5 T6].
  rewrite !(FileUriToPath_accept _ uri Hlen Hfile), Hslash.
  repeat split; assumption.
Qed.

Lemma FileUriToPath_authority_form_witness :
  FileUriToPath Windows (lit "FILE://fnord/somepath/somefile.ext")
  = Ok (lit "//fnord/somepath/somefile.ext")
  /\ FileUriToPath NotWindows (lit "FILE://fnord/somepath/somefile.ext")
     = Ok (lit "/fnord/somepath/somefile.ext").
Proof.
  assert (Hlen : 8 <= size (lit "FILE://fnord/somepath/somefile.ext"))
    by (vm_compute; discriminate).
  assert (Hfile : IsFileUri (lit "FILE://fnord/somepath/somefile.ext") = Ok true)
    by reflexivity.
  assert (Hslash : nth 7 (lit "FILE://fnord/somepath/somefile.ext") NUL <> "/"%char)
    by (vm_compute; discriminate).
  pose proof (FileUriToPath_authority_form _ Hlen Hfile Hslash)
    as [[HW _] [[HN _] _]].
  split; [exact HW | exact HN].
Defined.

(** C10: [file:///] has eight characters and is accepted by [IsFileUri],
    yet [FileUriToPath] returns the empty path for it, the very value it
    returns for every input that is too short or has another scheme. *)
Theorem FileUriToPath_empty_path_is_ambiguous (pf : platform) :
  size (lit "file:///") = 8
  /\ IsFileUri (lit "file:///") = Ok true
  /\ FileUriToPath pf (lit "file:///") = Ok []
  /\ (forall uri, size uri < 8 \/ IsFileUri uri = Ok false ->
        FileUriToPath pf uri = FileUriToPath pf (lit "file:///")).
Proof.
  assert (E : FileUriToPath pf (lit "file:///") = Ok []) by now destruct pf.
  repeat split; try reflexivity; try exact E.
  intros uri H. rewrite E. now apply FileUriToPath_reject.
Qed.

Lemma FileUriToPath_empty_path_is_ambiguous_witness :
  FileUriToPath Windows (lit "/fnord/something")
  = FileUriToPath Windows (lit "file:///").
Proof.
  apply (proj2 (proj2 (proj2 (FileUriToPath_empty_path_is_ambiguous Windows)))).
  right. reflexivity.
Defined.

(** ** PathToFileUri *)

Lemma replace_app (old new : ascii) (s t : str) :
  replace old new (s ++ t) = replace old new s ++ replace old new t.
Proof. apply map_app. Qed.

Lemma replace_backslash_idempotent (s : str) :
  replace "\" "/" (replace "\" "/" s) = replace "\" "/" s.
Proof.
  unfold replace. rewrite map_map. apply map_ext. intros c.
  destruct (Ascii.eqb_spec c "\"%char) as [->|Hc]; [reflexivity|].
  now apply Ascii.eqb_neq in Hc as ->.
Qed.

(** The scheme and slashes [PathToFileUri] puts in front of the path. *)
Lemma PathToFileUri_eq (p : filesystem.path) :
  PathToFileUri p =
  Ok (replace "\" "/"
        ((if filesystem.has_root_name p then
            (if stringIsPrefix (lit "//") (filesystem.rootName p)
                || stringIsPrefix (lit "\\") (filesystem.rootName p)
             then lit "file:" else lit "file:///")
            ++ replace "\" "/" (filesystem.rootName p)
          else lit "file://")
         ++ filesystem.rootDirectory p ++ filesystem.relativePath p)).
Proof.
  destruct p as [rn rd rel].
  unfold PathToFileUri, filesystem.generic_string, filesystem.string,
    filesystem.root_name, filesystem.root_directory, filesystem.relative_path.
  cbn [filesystem.rootName filesystem.rootDirectory filesystem.relativePath app].
  rewrite !app_nil_r.
  destruct (filesystem.has_root_name _); cbn [bind].
  - assert (N1 : ~ In NUL (lit "//")) by literal_without_NUL.
    assert (N2 : ~ In NUL (lit "\\")) by literal_without_NUL.
    destruct (strncmp_literal _ rn 2 N1 eq_refl) as (r1 & E1 & H1).
    destruct (strncmp_literal _ rn 2 N2 eq_refl) as (r2 & E2 & H2).
    rewrite E1, E2. cbn [bind]. rewrite H1, H2.
    assert (Hshort : size rn < 2 -> stringIsPrefix (lit "//") rn = false).
    { intros Hlt. apply not_true_is_false. intros F.
      apply stringIsPrefix_starts_with, starts_with_size in F.
      change (size (lit "//")) with 2 in F. lia. }
    destruct (Z.leb_spec 2 (size rn)) as [_|Hlt]; cbn [bind].
    + destruct (stringIsPrefix (lit "//") rn);
        [|destruct (stringIsPrefix (lit "\\") rn)];
        cbn [bind orb]; now rewrite <- !app_assoc.
    + rewrite (Hshort Hlt).
      destruct (stringIsPrefix (lit "\\") rn);
        cbn [bind orb]; now rewrite <- !app_assoc.
  - now rewrite <- !app_assoc.
Qed.

Lemma not_starts_with (p s : str) :
  ~ starts_with p s -> stringIsPrefix p s = false.
Proof.
  intros H. apply not_true_is_false. now rewrite stringIsPrefix_starts_with.
Qed.

Lemma round_trip_drive (pf : platform) (p : filesystem.path) :
  filesystem.has_root_name p = true ->
  no_unc_authority p ->
  round_trip pf p = Ok (filesystem.generic_string p).
Proof.
  intros Hroot [Hfwd Hback]. unfold round_trip.
  rewrite PathToFileUri_eq, Hroot.
  rewrite (not_starts_with _ _ Hfwd), (not_starts_with _ _ Hback).
  cbn [orb bind]. rewrite <- app_assoc, !replace_app.
  set (tail := replace "\" "/" (replace "\" "/" (filesystem.rootName p))
               ++ replace "\" "/" (filesystem.rootDirectory p)
               ++ replace "\" "/" (filesystem.relativePath p)).
  change (replace "\" "/" (lit "file:///")) with (lit "file:///").
  rewrite FileUriToPath_accept.
  - change (nth 7 (lit "file:///" ++ tail) NUL) with "/"%char.
    change (skipn 8 (lit "file:///" ++ tail)) with tail.
    cbn [Ascii.eqb Bool.eqb]. subst tail.
    rewrite replace_backslash_idempotent.
    unfold filesystem.generic_string, filesystem.string.
    now rewrite !replace_app.
  - unfold size. rewrite length_app.
    change (List.length (lit "file:///")) with 8%nat. lia.
  - apply IsFileUri_true_iff. left. now exists ("/"%char :: tail).
Qed.

(** Without a root-name the URI is [file://] followed by the path, and
    what comes back is one character shorter, or one or two longer. *)
Lemma round_trip_rootless (pf : platform) (p : filesystem.path) :
  filesystem.has_root_name p = false -> filesystem.string p <> [] ->
  exists r, round_trip pf p = Ok r
            /\ List.length r <> List.length (filesystem.generic_string p).
Proof.
  destruct p as [rn rd rel]. unfold filesystem.has_root_name.
  cbn [filesystem.rootName]. destruct rn as [|c rn]; [|discriminate].
  intros _ Hsome. unfold round_trip.
  rewrite PathToFileUri_eq.
  unfold filesystem.generic_string, filesystem.string in *.
  cbn [filesystem.has_root_name filesystem.rootName filesystem.rootDirectory
       filesystem.relativePath app bind] in *.
  rewrite replace_app.
  change (replace "\" "/" (lit "file://")) with (lit "file://").
  set (t := replace "\" "/" (rd ++ rel)).
  assert (Ht : (0 < List.length t)%nat).
  { subst t. unfold replace. rewrite length_map.
    destruct (rd ++ rel); [contradiction | cbn; lia]. }
  rewrite FileUriToPath_accept.
  - eexists. split; [reflexivity|].
    change (skipn 8 (lit "file://" ++ t)) with (skipn 1 t).
    change (skipn 5 (lit "file://" ++ t)) with ("/"%char :: "/"%char :: t).
    change (skipn 6 (lit "file://" ++ t)) with ("/"%char :: t).
    destruct (Ascii.eqb _ _); [|destruct pf];
      rewrite ?length_skipn; cbn [List.length]; lia.
  - unfold size. rewrite length_app.
    change (List.length (lit "file://")) with 7%nat. lia.
  - apply IsFileUri_true_iff. left. now exists t.
Qed.

(** C3, amended: among the paths whose root-name is not a network host,
    the ones that come back from [PathToFileUri] and [FileUriToPath] as
    their forward-slash form are exactly the paths that have a root-name
    (a drive such as [c:]) and the empty path, on every platform. *)
Theorem round_trip_exactly_with_root_name (pf : platform) (p : filesystem.path) :
  no_unc_authority p ->
  (round_trip pf p = Ok (filesystem.generic_string p)
   <-> filesystem.has_root_name p = true \/ filesystem.string p = []).
Proof.
  intros Hunc. split.
  - intros Hback.
    destruct (filesystem.has_root_name p) eqn:Hroot; [now left|]. right.
    destruct (filesystem.string p) as [|c s] eqn:Hstr; [reflexivity|].
    destruct (round_trip_rootless pf p Hroot) as (r & Hr & Hlen).
    + rewrite Hstr. discriminate.
    + rewrite Hback in Hr. injection Hr as <-. contradiction.
  - intros [Hroot|Hempty].
    + now apply round_trip_drive.
    + destruct p as [rn rd rel]. unfold filesystem.string in Hempty.
      cbn [filesystem.rootName filesystem.rootDirectory
           filesystem.relativePath] in Hempty.
      apply app_eq_nil in Hempty as [-> Hempty].
      apply app_eq_nil in Hempty as [-> ->].
      now destruct pf.
Qed.

Lemma round_trip_exactly_with_root_name_witness :
  round_trip Windows drive_path = Ok (lit "c:/a/b.ext").
Proof.
  apply (round_trip_exactly_with_root_name Windows drive_path).
  - split; intros [rest H]; discriminate H.
  - left. reflexivity.
Defined.

(** C3 as stated fails: the relative path [foo/bar] and the rooted path
    [/foo/bar] have no root-name at all, hence no network host, and neither
    comes back as its forward-slash form. *)
Lemma round_trip_without_root_name_fails :
  no_unc_authority relative_foo_bar
  /\ filesystem.generic_string relative_foo_bar = lit "foo/bar"
  /\ round_trip Windows relative_foo_bar = Ok (lit "//foo/bar")
  /\ round_trip NotWindows relative_foo_bar = Ok (lit "/foo/bar")
  /\ no_unc_authority rooted_foo_bar
  /\ filesystem.generic_string rooted_foo_bar = lit "/foo/bar"
  /\ (forall pf, round_trip pf rooted_foo_bar = Ok (lit "foo/bar"))
  /\ ~ (forall pf p, no_unc_authority p ->
          round_trip pf p = Ok (filesystem.generic_string p)).
Proof.
  assert (Hrel : no_unc_authority relative_foo_bar)
    by (split; intros [rest H]; discriminate H).
  assert (Hrooted : no_unc_authority rooted_foo_bar)
    by (split; intros [rest H]; discriminate H).
  split; [exact Hrel|]. do 3 (split; [reflexivity|]).
  split; [exact Hrooted|]. split; [reflexivity|]. split.
  - now intros [].
  - intros H. specialize (H Windows relative_foo_bar Hrel). discriminate H.
Qed.

(** ** UriToSubpath: the scheme prefix *)

Lemma stringIsPrefix_app (p rest : str) : stringIsPrefix p (p ++ rest) = true.
Proof. apply stringIsPrefix_starts_with. now exists rest. Qed.

Lemma assign_from_prefix (p rest : str) :
  assign_from (p ++ rest) (size p) = Ok rest.
Proof.
  unfold assign_from, size. rewrite length_app.
  destruct (Z.ltb_spec (Z.of_nat (List.length p)) 0); [lia|].
  destruct (Z.ltb_spec (Z.of_nat (List.length p + List.length rest))
              (Z.of_nat (List.length p))); [lia|].
  cbn [orb]. now rewrite Nat2Z.id, skipn_app, skipn_all, Nat.sub_diag.
Qed.

(** The chain of tests of the source drops what the spec says it drops. *)
Lemma strip_scheme_spec (uri stripped : str) :
  scheme_stripped uri stripped -> strip_scheme uri = Ok stripped.
Proof.
  intros [rest ->|rest ->|rest ->|Hhttp Hhttps Hipfs]; unfold strip_scheme.
  - rewrite stringIsPrefix_app.
    change (strlen (c_str (lit "http://"))) with (Ok (size (lit "http://"))).
    apply assign_from_prefix.
  - assert (stringIsPrefix (lit "http://") (lit "https://" ++ rest) = false)
      as -> by reflexivity.
    rewrite stringIsPrefix_app.
    change (strlen (c_str (lit "https://"))) with (Ok (size (lit "https://"))).
    apply assign_from_prefix.
  - assert (stringIsPrefix (lit "http://") (lit "ipfs://" ++ rest) = false)
      as -> by reflexivity.
    assert (stringIsPrefix (lit "https://") (lit "ipfs://" ++ rest) = false)
      as -> by reflexivity.
    rewrite stringIsPrefix_app.
    change (strlen (c_str (lit "ipfs://"))) with (Ok (size (lit "ipfs://"))).
    apply assign_from_prefix.
  - now rewrite !not_starts_with.
Qed.

(** Every URI falls under one of the four cases. *)
Lemma scheme_stripped_total (uri : str) : exists stripped, scheme_stripped uri stripped.
Proof.
  destruct (stringIsPrefix (lit "http://") uri) eqn:E1.
  { apply stringIsPrefix_starts_with in E1 as [rest ->].
    exists rest. now apply stripped_http. }
  destruct (stringIsPrefix (lit "https://") uri) eqn:E2.
  { apply stringIsPrefix_starts_with in E2 as [rest ->].
    exists rest. now apply stripped_https. }
  destruct (stringIsPrefix (lit "ipfs://") uri) eqn:E3.
  { apply stringIsPrefix_starts_with in E3 as [rest ->].
    exists rest. now apply stripped_ipfs. }
  exists uri. apply stripped_nothing;
    rewrite <- stringIsPrefix_starts_with; congruence.
Qed.

Lemma scheme_stripped_size (uri stripped : str) :
  scheme_stripped uri stripped -> size stripped <= size uri.
Proof.
  intros [rest ->|rest ->|rest ->|_ _ _]; unfold size;
    rewrite ?length_app; lia.
Qed.

(** ** UriToSubpath: the replaced characters *)

Lemma is_special_In (c : ascii) :
  is_special c = true <-> In c special_characters.
Proof.
  unfold is_special. rewrite !orb_true_iff, !Ascii.eqb_eq.
  change special_characters
    with ["/"; "\"; "#"; "?"; ":"; "."; "&"]%char.
  cbn [In]. intuition congruence.
Qed.

Lemma underscore_spec (c : ascii) :
  underscore c = if in_dec ascii_dec c special_characters then "_"%char else c.
Proof.
  unfold underscore.
  destruct (in_dec ascii_dec c special_characters) as [Hin|Hout].
  - apply is_special_In in Hin. now rewrite Hin.
  - destruct (is_special c) eqn:E; [|reflexivity].
    apply is_special_In in E. contradiction.
Qed.

Lemma underscore_not_special (c : ascii) : ~ In (underscore c) special_characters.
Proof.
  rewrite <- is_special_In. unfold underscore.
  destruct (is_special c) eqn:E; [discriminate | congruence].
Qed.

Lemma map_underscore_underscored (s : str) : underscored s (map underscore s).
Proof.
  split; [apply length_map|].
  intros i c Hc. now rewrite nth_error_map, Hc, <- underscore_spec.
Qed.

Lemma map_underscore_clean (s : str) (c : ascii) :
  In c special_characters -> ~ In c (map underscore s).
Proof.
  intros Hc Hin. apply in_map_iff in Hin as (d & <- & _).
  now apply (underscore_not_special d).
Qed.

(** ** UriToSubpath: the length test and the erase *)

Lemma size_map_underscore (s : str) : size (map underscore s) = size s.
Proof. unfold size. now rewrite length_map. Qed.

Lemma size_nonneg (s : str) : 0 <= size s.
Proof. unfold size. lia. Qed.

(** Erasing from the front leaves a tail of the string. *)
Lemma erase_front (s : str) (count : Z) :
  erase s 0 count = Ok (skipn (Z.to_nat (Z.min count (size s))) s).
Proof.
  unfold erase. pose proof (size_nonneg s).
  destruct (Z.ltb_spec (size s) 0); [lia|].
  now rewrite Z.sub_0_r, Z.add_0_l.
Qed.

(** In [size_t], [maxLength - size] for a longer string wraps to a count
    that is at least the size of the string. *)
Lemma wrapped_count_covers (maxLength n : Z) :
  0 <= maxLength < n -> n <= max_size ->
  n <= size_t_wrap (maxLength - n).
Proof.
  unfold size_t_wrap, SIZE_MODULUS, max_size. intros Hlt Hmax.
  rewrite <- (Z_mod_plus_full (maxLength - n) 1 (2 ^ 64)).
  rewrite Z.mod_small; lia.
Qed.

Lemma UriToSubpath_fits (uri stripped : str) (maxLength : Z) :
  scheme_stripped uri stripped -> size stripped <= maxLength ->
  UriToSubpath uri maxLength = Ok (map underscore stripped).
Proof.
  intros Hs Hfit. unfold UriToSubpath.
  rewrite (strip_scheme_spec _ _ Hs). cbn [bind].
  rewrite size_map_underscore.
  destruct (Z.ltb_spec maxLength (size stripped)); [lia | reflexivity].
Qed.

Lemma UriToSubpath_over_length (uri stripped : str) (maxLength : Z) :
  scheme_stripped uri stripped ->
  0 <= maxLength < size stripped -> size stripped <= max_size ->
  UriToSubpath uri maxLength = Ok [].
Proof.
  intros Hs Hlt Hmax. unfold UriToSubpath.
  rewrite (strip_scheme_spec _ _ Hs). cbn [bind].
  rewrite erase_front, size_map_underscore.
  destruct (Z.ltb_spec maxLength (size stripped)); [|lia].
  pose proof (wrapped_count_covers maxLength (size stripped) Hlt Hmax).
  rewrite Z.min_r by lia. f_equal. apply skipn_all2.
  rewrite length_map. unfold size. lia.
Qed.

(** ** UriToSubpath: the properties *)

(** C5: when the stripped string fits in [maxLength], [UriToSubpath]
    returns the URI without its scheme prefix ([http://], [https://] or
    [ipfs://], or the whole URI when it has none of them), with an
    underscore for each of [/ \ # ? : . &], the other characters and the
    length kept; one of the four cases applies to every URI; and
    [https://foo.com/x?y#1] gives [foo_com_x_y_1] under every [maxLength]
    of at least its thirteen characters. *)
Theorem UriToSubpath_strips_and_replaces :
  (forall uri stripped maxLength,
     scheme_stripped uri stripped -> size stripped <= maxLength ->
     exists r, UriToSubpath uri maxLength = Ok r /\ underscored stripped r)
  /\ (forall uri, exists stripped, scheme_stripped uri stripped)
  /\ (forall maxLength, 13 <= maxLength ->
        UriToSubpath (lit "https://foo.com/x?y#1") maxLength
        = Ok (lit "foo_com_x_y_1")).
Proof.
  split; [|split].
  - intros uri stripped maxLength Hs Hfit.
    exists (map underscore stripped). split.
    + now apply UriToSubpath_fits.
    + apply map_underscore_underscored.
  - apply scheme_stripped_total.
  - intros maxLength Hfit.
    apply (UriToSubpath_fits _ (lit "foo.com/x?y#1")).
    + now apply stripped_https.
    + change (size (lit "foo.com/x?y#1")) with 13. exact Hfit.
Qed.

Lemma UriToSubpath_strips_and_replaces_witness :
  exists r, UriToSubpath (lit "ipfs://a.b/c&d") 7 = Ok r
            /\ underscored (lit "a.b/c&d") r.
Proof.
  apply (proj1 UriToSubpath_strips_and_replaces
           (lit "ipfs://a.b/c&d") (lit "a.b/c&d") 7).
  - now apply stripped_ipfs.
  - vm_compute. discriminate.
Defined.

(** C9: whatever the URI and whatever [maxLength], [UriToSubpath] returns
    a string, and none of [/ \ # ? : . &] occurs in it. *)
Theorem UriToSubpath_output_has_no_special_character (uri : str) (maxLength : Z) :
  exists r, UriToSubpath uri maxLength = Ok r
            /\ forall c, In c special_characters -> ~ In c r.
Proof.
  destruct (scheme_stripped_total uri) as [stripped Hs].
  unfold UriToSubpath. rewrite (strip_scheme_spec _ _ Hs). cbn [bind].
  destruct (maxLength <? size (map underscore stripped)).
  - rewrite erase_front. eexists. split; [reflexivity|].
    intros c Hc Hin. apply (map_underscore_clean stripped c Hc).
    rewrite <- (firstn_skipn
      (Z.to_nat (Z.min (size_t_wrap (maxLength - size (map underscore stripped)))
                       (size (map underscore stripped))))).
    apply in_or_app. now right.
  - eexists. split; [reflexivity|]. apply map_underscore_clean.
Qed.

(** C1: the source erases [maxLength - result.size()] characters, a
    difference that wraps around in [size_t]; so for
    [01234567890123456789] and [maxLength = 7] the result is the empty
    string and not the tail [3456789], and the same happens to every
    string that is longer than [maxLength]. *)
Theorem UriToSubpath_truncation_erases_everything :
  UriToSubpath (lit "01234567890123456789") 7 = Ok []
  /\ UriToSubpath (lit "01234567890123456789") 7 <> Ok (lit "3456789")
  /\ (forall uri stripped maxLength,
        scheme_stripped uri stripped ->
        0 <= maxLength < size stripped -> size stripped <= max_size ->
        UriToSubpath uri maxLength = Ok []).
Proof.
  split; [|split].
  - vm_compute. reflexivity.
  - vm_compute. discriminate.
  - apply UriToSubpath_over_length.
Qed.

(** C2 as stated fails: with [maxLength = 0] the URI [http://foo.com]
    gives the empty string, not [foo_com]. *)
Lemma UriToSubpath_zero_is_no_default :
  UriToSubpath (lit "http://foo.com") 0 = Ok []
  /\ UriToSubpath (lit "http://foo.com") 0 <> Ok (lit "foo_com")
  /\ ~ (forall uri stripped, scheme_stripped uri stripped ->
          UriToSubpath uri 0 = Ok (map underscore stripped)).
Proof.
  split; [|split].
  - vm_compute. reflexivity.
  - vm_compute. discriminate.
  - intros H. specialize (H (lit "http://foo.com") (lit "foo.com")).
    assert (Hs : scheme_stripped (lit "http://foo.com") (lit "foo.com"))
      by now apply stripped_http.
    apply H in Hs. vm_compute in Hs. discriminate Hs.
Qed.

(** C2, amended: zero is a length like any other.  [UriToSubpath(uri, 0)]
    is the empty string for every URI a [std::string] can hold, and the
    stripped and replaced string is returned whole when its length is at
    most [maxLength]. *)
Theorem UriToSubpath_zero_keeps_nothing (uri : str) :
  size uri <= max_size ->
  UriToSubpath uri 0 = Ok []
  /\ (forall stripped maxLength,
        scheme_stripped uri stripped -> size stripped <= maxLength ->
        UriToSubpath uri maxLength = Ok (map underscore stripped)).
Proof.
  intros Hmax. split.
  - destruct (scheme_stripped_total uri) as [stripped Hs].
    pose proof (scheme_stripped_size _ _ Hs) as Hle.
    pose proof (size_nonneg stripped) as Hpos.
    destruct (Z.eq_dec (size stripped) 0) as [Hzero|Hsome].
    + rewrite (UriToSubpath_fits uri stripped 0 Hs) by lia.
      destruct stripped; [reflexivity | discriminate Hzero].
    + apply (UriToSubpath_over_length uri stripped 0 Hs); lia.
  - intros stripped maxLength. apply UriToSubpath_fits.
Qed.

Lemma UriToSubpath_zero_keeps_nothing_witness :
  UriToSubpath (lit "https://foo.com/blargh/fred?something#27") 0 = Ok [].
Proof.
  apply (UriToSubpath_zero_keeps_nothing
           (lit "https://foo.com/blargh/fred?something#27")).
  vm_compute. discriminate.
Defined.

(** ** The assertions of tests/test_tools.cpp that the source meets *)

Example test_IsFileUri :
  IsFileUri (lit "file://fnord") = Ok true
  /\ IsFileUri (lit "FILE://fnord") = Ok true
  /\ IsFileUri (lit "file:fnord") = Ok false
  /\ IsFileUri (lit "http://fnord") = Ok false
  /\ IsFileUri (lit "/fnord/something") = Ok false.
Proof. repeat split; reflexivity. Qed.

Example test_FileUriToPath :
  FileUriToPath Windows (lit "file://fnord/somepath/somefile.ext")
    = Ok (lit "//fnord/somepath/somefile.ext")
  /\ (forall pf, FileUriToPath pf (lit "file:///c:/somepath/somefile.ext")
                 = Ok (lit "c:/somepath/somefile.ext")).
Proof. split; [reflexivity | now intros []]. Qed.

Example test_PathToFileUri :
  PathToFileUri
    (filesystem.mkpath (lit "//fnord") (lit "/") (lit "somepath/somefile.ext"))
    = Ok (lit "file://fnord/somepath/somefile.ext")
  /\ PathToFileUri
       (filesystem.mkpath (lit "c:") (lit "/") (lit "somepath/somefile.ext"))
     = Ok (lit "file:///c:/somepath/somefile.ext").
Proof. split; reflexivity. Qed.

(** ** FileUriToPath: what it returns *)

(** X1: [FileUriToPath] never throws and never reads outside the URI, and
    the path it returns is a suffix of the URI. *)
Theorem FileUriToPath_returns_suffix (pf : platform) (uri : str) :
  exists pre r, FileUriToPath pf uri = Ok r /\ uri = pre ++ r.
Proof.
  destruct (Z.lt_ge_cases (size uri) 8) as [Hshort|Hlen].
  { exists uri, []. split; [|now rewrite app_nil_r].
    apply FileUriToPath_reject. now left. }
  pose proof (IsFileUri_prefix uri) as Hfile.
  destruct (stringIsPrefix (lit "file://") uri || stringIsPrefix (lit "FILE://") uri).
  - rewrite (FileUriToPath_accept pf uri Hlen Hfile).
    destruct (Ascii.eqb (nth 7 uri NUL) "/"); [|destruct pf];
      eexists; eexists; (split; [reflexivity|]); symmetry; apply firstn_skipn.
  - exists uri, []. split; [|now rewrite app_nil_r].
    apply FileUriToPath_reject. now right.
Qed.

(** X2: the empty path comes back for the rejected inputs and for the two
    URIs [file:///] and [FILE:///], and for nothing else. *)
Theorem FileUriToPath_empty_iff (pf : platform) (uri : str) :
  FileUriToPath pf uri = Ok [] <->
  size uri < 8 \/ IsFileUri uri = Ok false
  \/ uri = lit "file:///" \/ uri = lit "FILE:///".
Proof.
  split.
  - intros Hempty.
    destruct (Z.lt_ge_cases (size uri) 8) as [Hshort|Hlen]; [now left|].
    right. pose proof (IsFileUri_prefix uri) as Hfile.
    destruct (stringIsPrefix (lit "file://") uri || stringIsPrefix (lit "FILE://") uri);
      [|now left].
    right. rewrite (FileUriToPath_accept pf uri Hlen Hfile) in Hempty.
    apply IsFileUri_true_iff in Hfile.
    destruct Hfile as [[rest ->]|[rest ->]];
      (destruct rest as [|c rest];
        [exfalso; revert Hlen; vm_compute; intros Hlen; now apply Hlen|]).
    + change (nth 7 (lit "file://" ++ c :: rest) NUL) with c in Hempty.
      change (skipn 8 (lit "file://" ++ c :: rest)) with rest in Hempty.
      destruct (Ascii.eqb_spec c "/"%char) as [->|_].
      * injection Hempty as ->. now left.
      * now destruct pf.
    + change (nth 7 (lit "FILE://" ++ c :: rest) NUL) with c in Hempty.
      change (skipn 8 (lit "FILE://" ++ c :: rest)) with rest in Hempty.
      destruct (Ascii.eqb_spec c "/"%char) as [->|_].
      * injection Hempty as ->. now right.
      * now destruct pf.
  - intros [Hshort|[Hscheme|[->| ->]]].
    + apply FileUriToPath_reject. now left.
    + apply FileUriToPath_reject. now right.
    + now destruct pf.
    + now destruct pf.
Qed.

Lemma size_app_literal (p rest : str) (n : Z) :
  n <= size p -> n <= size (p ++ rest).
Proof. unfold size. rewrite length_app. lia. Qed.

(** X3: on every platform, a URI of the [file:///] form, in either of
    the two casings, gives everything after the third slash. *)
Theorem FileUriToPath_triple_slash (pf : platform) (rest : str) :
  FileUriToPath pf (lit "file:///" ++ rest) = Ok rest
  /\ FileUriToPath pf (lit "FILE:///" ++ rest) = Ok rest.
Proof.
  split; rewrite FileUriToPath_accept;
    try reflexivity;
    apply size_app_literal; vm_compute; discriminate.
Qed.

(** ** PathToFileUri: what it returns *)

(** The URI is a prefix chosen from the root-name, then the forward-slash
    form of the whole path. *)
Lemma PathToFileUri_generic (p : filesystem.path) :
  PathToFileUri p =
  Ok ((if filesystem.has_root_name p then
         if stringIsPrefix (lit "//") (filesystem.rootName p)
            || stringIsPrefix (lit "\\") (filesystem.rootName p)
         then lit "file:" else lit "file:///"
       else lit "file://")
      ++ filesystem.generic_string p).
Proof.
  rewrite PathToFileUri_eq. f_equal.
  unfold filesystem.generic_string, filesystem.string.
  destruct p as [rn rd rel].
  cbn [filesystem.rootName filesystem.rootDirectory filesystem.relativePath].
  unfold filesystem.has_root_name. cbn [filesystem.rootName].
  destruct rn as [|c rn]; [reflexivity|].
  destruct (stringIsPrefix (lit "//") (c :: rn)
            || stringIsPrefix (lit "\\") (c :: rn));
    rewrite !replace_app, replace_backslash_idempotent; reflexivity.
Qed.

Lemma replace_without_backslash (s : str) : ~ In "\"%char (replace "\" "/" s).
Proof.
  unfold replace. intros Hin. apply in_map_iff in Hin as (c & Hc & _).
  destruct (Ascii.eqb_spec c "\"%char) as [_|Hne]; [discriminate Hc | now apply Hne].
Qed.

(** A network root-name puts two slashes at the head of the forward-slash
    form. *)
Lemma unc_generic_string (p : filesystem.path) :
  unc_authority p ->
  exists rest, filesystem.generic_string p = "/"%char :: "/"%char :: rest.
Proof.
  unfold filesystem.generic_string, filesystem.string.
  intros [[r Hr]|[r Hr]]; rewrite Hr, <- app_assoc, replace_app; eexists; reflexivity.
Qed.

Lemma unc_prefix (p : filesystem.path) :
  unc_authority p ->
  filesystem.has_root_name p = true
  /\ stringIsPrefix (lit "//") (filesystem.rootName p)
     || stringIsPrefix (lit "\\") (filesystem.rootName p) = true.
Proof.
  intros Hunc. split.
  - unfold filesystem.has_root_name.
    destruct Hunc as [[r ->]|[r ->]]; reflexivity.
  - apply orb_true_iff. now rewrite !stringIsPrefix_starts_with.
Qed.

(** X4: [PathToFileUri] never fails; for every path the URI it returns
    begins with [file://], is accepted by [IsFileUri] and holds no
    backslash. *)
Theorem PathToFileUri_gives_file_uri (p : filesystem.path) :
  exists uri, PathToFileUri p = Ok uri
              /\ starts_with (lit "file://") uri
              /\ IsFileUri uri = Ok true
              /\ ~ In "\"%char uri.
Proof.
  assert (Hstart : exists uri, PathToFileUri p = Ok uri
                               /\ starts_with (lit "file://") uri).
  { rewrite PathToFileUri_generic. eexists. split; [reflexivity|].
    destruct (filesystem.has_root_name p) eqn:Hroot;
      [|now exists (filesystem.generic_string p)].
    destruct (stringIsPrefix (lit "//") (filesystem.rootName p)
              || stringIsPrefix (lit "\\") (filesystem.rootName p)) eqn:Hunc;
      [|now exists ("/"%char :: filesystem.generic_string p)].
    apply orb_true_iff in Hunc. rewrite !stringIsPrefix_starts_with in Hunc.
    destruct (unc_generic_string p Hunc) as [rest ->]. now exists rest. }
  destruct Hstart as (uri & Huri & Hstart).
  exists uri. split; [exact Huri|]. split; [exact Hstart|]. split.
  - apply IsFileUri_true_iff. now left.
  - rewrite PathToFileUri_eq in Huri. injection Huri as <-.
    apply replace_without_backslash.
Qed.

(** X5: a network path whose host begins right after the two slashes
    comes back as its forward-slash form on a Windows build, and with one
    of the two leading slashes lost on any other build. *)
Theorem round_trip_network_path (p : filesystem.path) :
  unc_authority p ->
  nth 2 (filesystem.generic_string p) "/"%char <> "/"%char ->
  round_trip Windows p = Ok (filesystem.generic_string p)
  /\ round_trip NotWindows p = Ok (tl (filesystem.generic_string p)).
Proof.
  intros Hunc Hhost. unfold round_trip.
  rewrite PathToFileUri_generic.
  destruct (unc_prefix p Hunc) as [-> ->].
  destruct (unc_generic_string p Hunc) as [rest Hgen].
  rewrite Hgen in *. cbn [bind tl].
  destruct rest as [|c rest]; [now contradiction Hhost|].
  cbn [nth] in Hhost. apply Ascii.eqb_neq in Hhost.
  assert (Hlen : 8 <= size (lit "file:" ++ "/"%char :: "/"%char :: c :: rest)).
  { change (lit "file:" ++ "/"%char :: "/"%char :: c :: rest)
      with (lit "file://" ++ c :: rest).
    unfold size. rewrite length_app. cbn [List.length].
    change (List.length (lit "file://")) with 7%nat. lia. }
  assert (Hfile : IsFileUri (lit "file:" ++ "/"%char :: "/"%char :: c :: rest)
                  = Ok true).
  { apply IsFileUri_true_iff. left. now exists (c :: rest). }
  rewrite !(FileUriToPath_accept _ _ Hlen Hfile).
  change (nth 7 (lit "file:" ++ "/"%char :: "/"%char :: c :: rest) NUL) with c.
  rewrite Hhost. split; reflexivity.
Qed.

Lemma round_trip_network_path_witness :
  round_trip Windows network_path = Ok (lit "//fnord/somepath/somefile.ext")
  /\ round_trip NotWindows network_path = Ok (lit "/fnord/somepath/somefile.ext").
Proof.
  apply (round_trip_network_path network_path).
  - right. now exists (lit "fnord").
  - vm_compute. discriminate.
Defined.

(** X6: the URI depends on the path only through its root-name and its
    forward-slash form: two paths with the same root-name that differ in
    the kind of their separators get the same URI. *)
Theorem PathToFileUri_separator_blind (p q : filesystem.path) :
  filesystem.rootName p = filesystem.rootName q ->
  filesystem.generic_string p = filesystem.generic_string q ->
  PathToFileUri p = PathToFileUri q.
Proof.
  intros Hroot Hgen. rewrite !PathToFileUri_generic.
  unfold filesystem.has_root_name. now rewrite Hroot, Hgen.
Qed.

Lemma PathToFileUri_separator_blind_witness :
  PathToFileUri drive_path
  = PathToFileUri (filesystem.mkpath (lit "c:") (lit "/") (lit "a/b.ext")).
Proof.
  apply (PathToFileUri_separator_blind drive_path
           (filesystem.mkpath (lit "c:") (lit "/") (lit "a/b.ext")));
    reflexivity.
Defined.

(** ** UriToSubpath: what it returns *)

(** For a length limit and a string the types can hold, the result is
    the whole replaced string or nothing. *)
Lemma UriToSubpath_cases (uri : str) (maxLength : Z) :
  0 <= maxLength -> size uri <= max_size ->
  exists stripped,
    scheme_stripped uri stripped
    /\ ((size stripped <= maxLength
         /\ UriToSubpath uri maxLength = Ok (map underscore stripped))
        \/ (maxLength < size stripped
            /\ UriToSubpath uri maxLength = Ok [])).
Proof.
  intros Hpos Hmax. destruct (scheme_stripped_total uri) as [stripped Hs].
  exists stripped. split; [exact Hs|].
  pose proof (scheme_stripped_size _ _ Hs) as Hle.
  destruct (Z.le_gt_cases (size stripped) maxLength) as [Hfit|Hover].
  - left. split; [exact Hfit|]. now apply UriToSubpath_fits.
  - right. split; [exact Hover|].
    apply (UriToSubpath_over_length uri stripped maxLength Hs); lia.
Qed.

Lemma underscore_fixes_clean (s : str) :
  (forall c, In c special_characters -> ~ In c s) -> map underscore s = s.
Proof.
  intros Hclean. rewrite <- (map_id s) at 2. apply map_ext_in.
  intros c Hc. rewrite underscore_spec.
  destruct (in_dec ascii_dec c special_characters) as [Hin|_]; [|reflexivity].
  now destruct (Hclean c Hin).
Qed.

(** A string without [:] begins with none of the scheme prefixes. *)
Lemma clean_has_no_scheme (s : str) :
  (forall c, In c special_characters -> ~ In c s) -> scheme_stripped s s.
Proof.
  intros Hclean.
  assert (Hcolon : ~ In ":"%char s).
  { apply Hclean. apply is_special_In. reflexivity. }
  apply stripped_nothing; intros [rest ->]; apply Hcolon;
    apply in_or_app; left; vm_compute; tauto.
Qed.

(** X7: for a [maxLength] of type [size_t] and a URI a [std::string] can
    hold, the subpath is never longer than [maxLength] and never longer
    than the URI. *)
Theorem UriToSubpath_length_bound (uri : str) (maxLength : Z) :
  0 <= maxLength -> size uri <= max_size ->
  exists r, UriToSubpath uri maxLength = Ok r
            /\ size r <= maxLength /\ size r <= size uri.
Proof.
  intros Hpos Hmax.
  destruct (UriToSubpath_cases uri maxLength Hpos Hmax)
    as (stripped & Hs & [[Hfit ->]|[Hover ->]]).
  - pose proof (scheme_stripped_size _ _ Hs).
    eexists. split; [reflexivity|]. rewrite size_map_underscore. lia.
  - pose proof (size_nonneg uri).
    eexists. split; [reflexivity|]. change (size []) with 0. lia.
Qed.

Lemma UriToSubpath_length_bound_witness :
  exists r, UriToSubpath (lit "https://foo.com/blargh/fred?something#27") 16 = Ok r
            /\ size r <= 16
            /\ size r <= size (lit "https://foo.com/blargh/fred?something#27").
Proof.
  apply (UriToSubpath_length_bound
           (lit "https://foo.com/blargh/fred?something#27") 16).
  - lia.
  - vm_compute. discriminate.
Defined.

(** X8: a subpath is a fixed point: run on its own result with the same
    [maxLength], [UriToSubpath] returns that result unchanged. *)
Theorem UriToSubpath_idempotent (uri r : str) (maxLength : Z) :
  0 <= maxLength -> size uri <= max_size ->
  UriToSubpath uri maxLength = Ok r ->
  UriToSubpath r maxLength = Ok r.
Proof.
  intros Hpos Hmax Hr.
  destruct (UriToSubpath_cases uri maxLength Hpos Hmax)
    as (stripped & Hs & [[Hfit E]|[Hover E]]);
    rewrite E in Hr; injection Hr as <-.
  - assert (Hclean : forall c, In c special_characters ->
                               ~ In c (map underscore stripped))
      by (intros c; apply map_underscore_clean).
    rewrite (UriToSubpath_fits _ (map underscore stripped)).
    + now rewrite (underscore_fixes_clean _ Hclean).
    + now apply clean_has_no_scheme.
    + now rewrite size_map_underscore.
  - apply (UriToSubpath_fits [] []); [|exact Hpos].
    apply clean_has_no_scheme. intros c _ [].
Qed.

Lemma UriToSubpath_idempotent_witness :
  UriToSubpath (lit "foo_com_x_y_1") 100 = Ok (lit "foo_com_x_y_1").
Proof.
  apply (UriToSubpath_idempotent (lit "https://foo.com/x?y#1")
           (lit "foo_com_x_y_1") 100).
  - lia.
  - vm_compute. discriminate.
  - reflexivity.
Defined.

(** X9: the scheme is forgotten: the same address under [http://],
    [https://] and [ipfs://] gets one and the same subpath, and so does
    the bare address when it begins with none of the three. *)
Theorem UriToSubpath_schemes_collide (rest : str) (maxLength : Z) :
  UriToSubpath (lit "http://" ++ rest) maxLength
  = UriToSubpath (lit "https://" ++ rest) maxLength
  /\ UriToSubpath (lit "http://" ++ rest) maxLength
     = UriToSubpath (lit "ipfs://" ++ rest) maxLength
  /\ (scheme_stripped rest rest ->
      UriToSubpath (lit "http://" ++ rest) maxLength
      = UriToSubpath rest maxLength).
Proof.
  unfold UriToSubpath.
  rewrite (strip_scheme_spec (lit "http://" ++ rest) rest)
    by now apply stripped_http.
  rewrite (strip_scheme_spec (lit "https://" ++ rest) rest)
    by now apply stripped_https.
  rewrite (strip_scheme_spec (lit "ipfs://" ++ rest) rest)
    by now apply stripped_ipfs.
  split; [reflexivity|]. split; [reflexivity|].
  intros Hbare. now rewrite (strip_scheme_spec rest rest Hbare).
Qed.

Lemma UriToSubpath_schemes_collide_witness :
  UriToSubpath (lit "http://foo.com") 100 = UriToSubpath (lit "foo.com") 100.
Proof.
  apply (proj2 (proj2 (UriToSubpath_schemes_collide (lit "foo.com") 100))).
  apply stripped_nothing; intros [rest H]; discriminate H.
Defined.
